(** * Auction ledger of PROG2400_FinalProject/Auction.py

    A shallow embedding of the [Auction] class: the ledger record, its three
    methods as computations in a small state-and-exception monad (the
    formatting of the log lines included, which can raise), and the
    properties of the bid accounting (running maximum, multiplicity, tie
    handling, restart with a raised floor). *)

From stdpp Require Import gmap strings list fin_maps pretty.

Open Scope Z_scope.

(** ** Numbers

    The attributes [min_bid] and [current_max] hold Python ints, except that
    [current_max] starts as the float [-float('inf')], and [min_bid] becomes
    that float when [restart_auction] adds 1 to it.  Bid amounts are ints. *)

Inductive num : Type :=
  | NegInf
  | Int (z : Z).

Global Instance num_eq_dec : EqDecision num.
Proof. solve_decision. Defined.

Definition num_to_option (n : num) : option Z :=
  match n with NegInf => None | Int z => Some z end.

Definition num_of_option (o : option Z) : num :=
  match o with None => NegInf | Some z => Int z end.

Global Instance num_countable : Countable num :=
  inj_countable' num_to_option num_of_option
    (fun n => match n with NegInf => eq_refl | Int _ => eq_refl end).

(** [a < b] on Python numbers (int against int, or against [-inf]). *)
Definition num_ltb (a b : num) : bool :=
  match a, b with
  | _, NegInf => false
  | NegInf, Int _ => true
  | Int x, Int y => x <? y
  end.

(** [a > b] is [b < a]. *)
Definition num_gtb (a b : num) : bool := num_ltb b a.

(** [a == b]: an int never equals [-inf]. *)
Definition num_eqb (a b : num) : bool :=
  match a, b with
  | NegInf, NegInf => true
  | Int x, Int y => x =? y
  | _, _ => false
  end.

(** [a + 1]: float arithmetic keeps [-inf + 1 = -inf]. *)
Definition num_succ (a : num) : num :=
  match a with
  | NegInf => NegInf
  | Int z => Int (z + 1)
  end.

Definition num_le (a b : num) : Prop := num_ltb b a = false.
Definition num_lt (a b : num) : Prop := num_ltb a b = true.

Definition num_max (a b : num) : num := if num_ltb a b then b else a.

(** ** Converting numbers to text

    [str] of an int raises [ValueError] when the int has more decimal digits
    (the sign not counted) than the interpreter's limit, 4300 unless
    reconfigured; [str] of the float [-inf] is always ["-inf"]. *)

Definition int_digits (z : Z) : nat :=
  Decimal.nb_digits (N.to_uint (Z.abs_N z)).

Definition int_max_str_digits : nat := 4300.

Definition printable (n : num) : bool :=
  match n with
  | NegInf => true
  | Int z => Nat.leb (int_digits z) int_max_str_digits
  end.

(** ** The ledger *)

Module Auction.

Record t : Type := mk {
  min_bid : num;
  frequency : gmap num (list string);
  current_max : num;
  current_max_count : Z
}.

Inductive exn : Type :=
  | IndexError
  | ValueError.

Inductive outcome (A : Type) : Type :=
  | Return (a : A)
  | Raise (e : exn).
Global Arguments Return {A} a.
Global Arguments Raise {A} e.

(** A method body: it runs on the object, returns or raises, and leaves the
    object in some state either way. *)
Definition M (A : Type) : Type := t -> outcome A * t.

Definition ret {A} (a : A) : M A := fun self => (Return a, self).

Definition bind {A B} (m : M A) (k : A -> M B) : M B :=
  fun self =>
    match m self with
    | (Return a, self') => k a self'
    | (Raise e, self') => (Raise e, self')
    end.

Definition raise {A} (e : exn) : M A := fun self => (Raise e, self).

Definition get : M t := fun self => (Return self, self).

Notation "x <- m ;; k" := (bind m (fun x => k))
  (at level 100, m at next level, right associativity).
Notation "m ;;; k" := (bind m (fun _ => k))
  (at level 100, right associativity).

(** Attribute stores. *)
Definition set_min_bid (v : num) : M unit :=
  fun self => (Return tt, mk v (frequency self) (current_max self) (current_max_count self)).
Definition set_frequency (v : gmap num (list string)) : M unit :=
  fun self => (Return tt, mk (min_bid self) v (current_max self) (current_max_count self)).
Definition set_current_max (v : num) : M unit :=
  fun self => (Return tt, mk (min_bid self) (frequency self) v (current_max_count self)).
Definition set_current_max_count (v : Z) : M unit :=
  fun self => (Return tt, mk (min_bid self) (frequency self) (current_max self) v).

(** [self.frequency[k]] on a [defaultdict(list)]: a missing key is first
    bound to a fresh empty list, which is then the value read. *)
Definition frequency_getitem (k : num) : M (list string) :=
  self <- get ;;
  match frequency self !! k with
  | Some l => ret l
  | None => set_frequency (<[k := []]> (frequency self)) ;;; ret []
  end.

(** [self.frequency[k].append(x)]. *)
Definition frequency_append (k : num) (x : string) : M unit :=
  l <- frequency_getitem k ;;
  self <- get ;;
  set_frequency (<[k := l ++ [x]]> (frequency self)).

(** [l[0]]. *)
Definition list_getitem0 (l : list string) : M string :=
  match l with
  | [] => raise IndexError
  | x :: _ => ret x
  end.

(** A number as a field of an f-string: [str] is applied when the string
    is built, before [logging.info] is called with it.  Bidder ids are
    strings already and format without failure. *)
Definition format_num (n : num) : M unit :=
  if printable n then ret tt else raise ValueError.

(** [Auction(min_bid)]. *)
Definition init (min_bid : Z) : t :=
  mk (Int min_bid) ∅ NegInf 0.

(** Each [logging.info(f"...")] is modelled by the formatting of the
    numbers in its f-string, in the order of the fields; the logging itself
    does not touch the object. *)
Definition place_bid (bidder_id : string) (bid_amount : Z) : M unit :=
  self <- get ;;
  if num_ltb (Int bid_amount) (min_bid self) then
    format_num (Int bid_amount) ;;;
    format_num (min_bid self) ;;;
    ret tt
  else
    frequency_append (Int bid_amount) bidder_id ;;;
    format_num (Int bid_amount) ;;;
    self <- get ;;
    if num_gtb (Int bid_amount) (current_max self) then
      set_current_max (Int bid_amount) ;;;
      set_current_max_count 1 ;;;
      self <- get ;;
      format_num (current_max self)
    else if num_eqb (Int bid_amount) (current_max self) then
      set_current_max_count (current_max_count self + 1) ;;;
      self <- get ;;
      format_num (current_max self) ;;;
      format_num (Int (current_max_count self))
    else
      ret tt.

Definition close_auction (tie_breaker_first_bid : bool) : M (option string) :=
  self <- get ;;
  if (current_max_count self =? 1) || tie_breaker_first_bid then
    l <- frequency_getitem (current_max self) ;;
    winner <- list_getitem0 l ;;
    self <- get ;;
    format_num (current_max self) ;;;
    ret (Some winner)
  else
    format_num (current_max self) ;;;
    format_num (num_succ (current_max self)) ;;;
    ret None.

Definition restart_auction : M unit :=
  self <- get ;;
  set_min_bid (num_succ (current_max self)) ;;;
  set_frequency ∅ ;;;
  set_current_max NegInf ;;;
  set_current_max_count 0 ;;;
  self <- get ;;
  format_num (min_bid self).

End Auction.

Import Auction.

(** ** Call sequences

    A client drives one ledger by a sequence of method calls.  A call that
    raises leaves the object as the method left it. *)

Inductive call : Type :=
  | PlaceBid (bidder_id : string) (bid_amount : Z)
  | CloseAuction (tie_breaker_first_bid : bool)
  | RestartAuction.

(** The object after a call. *)
Definition exec (c : call) (self : t) : t :=
  match c with
  | PlaceBid b a => snd (place_bid b a self)
  | CloseAuction tb => snd (close_auction tb self)
  | RestartAuction => snd (restart_auction self)
  end.

Definition run (cs : list call) (self : t) : t :=
  fold_left (fun s c => exec c s) cs self.

(** The exception a call ends with, if any. *)
Definition raised {A} (r : outcome A * t) : option exn :=
  match fst r with Return _ => None | Raise e => Some e end.

Definition call_raised (c : call) (self : t) : option exn :=
  match c with
  | PlaceBid b a => raised (place_bid b a self)
  | CloseAuction tb => raised (close_auction tb self)
  | RestartAuction => raised (restart_auction self)
  end.

(** Whether a call returns normally. *)
Definition returns {A} (r : outcome A * t) : bool :=
  match fst r with Return _ => true | Raise _ => false end.

Definition call_returns (c : call) (self : t) : bool :=
  match c with
  | PlaceBid b a => returns (place_bid b a self)
  | CloseAuction tb => returns (close_auction tb self)
  | RestartAuction => returns (restart_auction self)
  end.

(** ** Round history (ghost state)

    The bids accepted so far in the current round, oldest first: a bid is
    accepted when its amount is not below the floor at the time of the call,
    and a restart opens a new round.  An accepted bid is appended to
    [frequency] whether or not the call then raises. *)

Definition bid : Type := string * Z.

Definition accepted (self : t) (bid_amount : Z) : bool :=
  negb (num_ltb (Int bid_amount) (min_bid self)).

Definition log_step (c : call) (self : t) (log : list bid) : list bid :=
  match c with
  | PlaceBid b a => if accepted self a then log ++ [(b, a)] else log
  | CloseAuction _ => log
  | RestartAuction => []
  end.

Fixpoint run_log (cs : list call) (self : t) (log : list bid) : t * list bid :=
  match cs with
  | [] => (self, log)
  | c :: cs' => run_log cs' (exec c self) (log_step c self log)
  end.

(** The bidders who bid [a], in the order of their bids. *)
Definition bidders_at (a : Z) (log : list bid) : list string :=
  map fst (filter (fun b => snd b = a) log).

(** The largest amount of a list of bids, [NegInf] for none. *)
Definition max_amount (log : list bid) : num :=
  fold_left (fun m b => num_max m (Int (snd b))) log NegInf.

(** How many bids of the list have amount [m]. *)
Definition count_amount (m : num) (log : list bid) : Z :=
  Z.of_nat (length (filter (fun b => Int (snd b) = m) log)).

(** The accepted bids that reach the bookkeeping of the running maximum:
    those whose amount can be formatted. *)
Definition tallied (log : list bid) : list bid :=
  filter (fun b => printable (Int (snd b)) = true) log.

(** What [frequency] holds for a list of bidders: no entry for none. *)
Definition entry (l : list string) : option (list string) :=
  match l with [] => None | _ => Some l end.

(** The ledger represents the round history [log]. *)
Record Rep (self : t) (log : list bid) : Prop := {
  rep_entries : forall a, frequency self !! Int a = entry (bidders_at a log);
  rep_sentinel : frequency self !! NegInf = None \/ frequency self !! NegInf = Some [];
  rep_max : current_max self = max_amount (tallied log);
  rep_count :
    current_max_count self =
      count_amount (max_amount (tallied log)) (tallied log);
  rep_floor : Forall (fun b => num_le (min_bid self) (Int (snd b))) log
}.

(** A ledger at the start of a round: no running maximum yet. *)
Definition fresh (self : t) : Prop :=
  current_max self = NegInf /\ current_max_count self = 0.

(** The invariants of the data model, as the specification lists them. *)
Definition keys_above_floor (self : t) : Prop :=
  forall k l, frequency self !! k = Some l -> num_le (min_bid self) k.

Definition max_is_max_key (self : t) : Prop :=
  forall m, current_max self = Int m ->
    is_Some (frequency self !! Int m) /\
    forall k l, frequency self !! k = Some l -> num_le k (Int m).

Definition count_is_length (self : t) : Prop :=
  forall m, current_max self = Int m ->
    exists l, frequency self !! Int m = Some l /\
              current_max_count self = Z.of_nat (length l).

(** The running maximum and its multiplicity agree with a list of bids. *)
Definition Tally (self : t) (log : list bid) : Prop :=
  current_max self = max_amount log /\
  current_max_count self = count_amount (current_max self) log.

(** Placing a list of bids, one call per bid. *)
Definition place_all (bids : list bid) : list call :=
  map (fun b => PlaceBid (fst b) (snd b)) bids.

(** Every call of the sequence returns normally. *)
Fixpoint all_return (cs : list call) (self : t) : bool :=
  match cs with
  | [] => true
  | c :: cs' => call_returns c self && all_return cs' (exec c self)
  end.

(** The specification's reading of a guarded restart: the call fails, or it
    leaves the floor as it was. *)
Definition restart_guarded (self : t) : Prop :=
  returns (restart_auction self) = false \/
  min_bid (snd (restart_auction self)) = min_bid self.

(** The outcome of a call whose last step formats numbers: it returns [a]
    when they can all be formatted. *)
Definition if_printable {A} (ok : bool) (a : A) : outcome A :=
  if ok then Return a else Raise ValueError.

(** The smallest amount [str] refuses: 1 followed by 4300 zeros. *)
Definition too_long : Z := 10 ^ 4300.

(** The scenario of the specification: floor 10, then three bids. *)
Definition scenario : list call :=
  [PlaceBid "Bidder1" 15; PlaceBid "Bidder2" 20; PlaceBid "Bidder3" 20].

(** ** The example script

    The module's [__main__] block drives one ledger and prints to standard
    output; the lines printed are collected in order. *)

(** [bool(x)] for an [Optional[str]]: [None] and the empty string are false. *)
Definition truthy (w : option string) : bool :=
  match w with
  | None => false
  | Some EmptyString => false
  | Some _ => true
  end.

(** [str(x)] as an f-string or [print] produces it. *)
Definition str_of_winner (w : option string) : string :=
  match w with
  | None => "None"
  | Some s => s
  end.

Definition str_of_num (n : num) : string :=
  match n with
  | NegInf => "-inf"
  | Int z => pretty z
  end.

Definition str_num (n : num) : M string :=
  format_num n ;;;
  ret (str_of_num n).

Definition main : outcome (list string) * t :=
  (place_bid "Bidder1" 15 ;;;
   place_bid "Bidder2" 20 ;;;
   place_bid "Bidder3" 20 ;;;
   winner <- close_auction false ;;
   out <- (if truthy winner then
             ret ["Winner: " +:+ str_of_winner winner]
           else
             self <- get ;;
             next <- str_num (num_succ (current_max self)) ;;
             restart_auction ;;;
             ret ["Restart auction with min bid: " +:+ next]) ;;
   place_bid "Bidder4" 25 ;;;
   place_bid "Bidder5" 25 ;;;
   winner <- close_auction true ;;
   ret (out ++ if truthy winner
               then ["Tie-breaker Winner: " +:+ str_of_winner winner]
               else []))
  (init 10).

(** The bids of a list that a ledger with floor [f] accepts. *)
Global Instance num_le_dec (a b : num) : Decision (num_le a b) :=
  decide (num_ltb b a = false).

Definition above_floor (f : num) (bids : list bid) : list bid :=
  filter (fun x => num_le f (Int (snd x))) bids.

(** ** Order facts on numbers *)

Lemma num_le_refl (a : num) : num_le a a.
Proof. destruct a; unfold num_le; simpl; [done | apply Z.ltb_irrefl]. Qed.

Lemma num_le_trans (a b c : num) : num_le a b -> num_le b c -> num_le a c.
Proof.
  unfold num_le. destruct a, b, c; simpl; try done.
  rewrite !Z.ltb_ge. lia.
Qed.

Lemma num_ltb_le (a b : num) : num_ltb a b = true -> num_le a b.
Proof.
  unfold num_le. destruct a, b; simpl; try done.
  rewrite Z.ltb_lt, Z.ltb_ge. lia.
Qed.

Lemma num_le_neginf (a : num) : num_le NegInf a.
Proof. by destruct a. Qed.

Lemma num_le_Int (x y : Z) : num_le (Int x) (Int y) <-> x <= y.
Proof. unfold num_le. simpl. by rewrite Z.ltb_ge. Qed.

Lemma num_eqb_eq (a b : num) : num_eqb a b = true <-> a = b.
Proof.
  destruct a, b; simpl; try (split; congruence).
  rewrite Z.eqb_eq. split; congruence.
Qed.

Lemma num_max_le_l (a b : num) : num_le a (num_max a b).
Proof.
  unfold num_max. destruct (num_ltb a b) eqn:E.
  - by apply num_ltb_le.
  - apply num_le_refl.
Qed.

Lemma num_max_le_r (a b : num) : num_le b (num_max a b).
Proof.
  unfold num_max. destruct (num_ltb a b) eqn:E.
  - apply num_le_refl.
  - exact E.
Qed.

(** ** The methods in closed form *)

Lemma place_bid_rejected (self : t) (b : string) (a : Z) :
  num_ltb (Int a) (min_bid self) = true ->
  place_bid b a self =
    (if_printable (printable (Int a) && printable (min_bid self)) tt, self).
Proof.
  intros H. cbv [place_bid bind get ret format_num raise]. rewrite H.
  destruct (printable (Int a)); [|done].
  by destruct (printable (min_bid self)).
Qed.

Lemma place_bid_unprintable (self : t) (b : string) (a : Z) :
  num_ltb (Int a) (min_bid self) = false ->
  printable (Int a) = false ->
  place_bid b a self =
    (Raise ValueError,
     mk (min_bid self)
        (<[Int a := default [] (frequency self !! Int a) ++ [b]]> (frequency self))
        (current_max self) (current_max_count self)).
Proof.
  intros H Hp. destruct self as [mb fr cm cnt]. cbn [min_bid] in H.
  cbv [place_bid frequency_append frequency_getitem bind get ret raise
    format_num set_frequency min_bid frequency current_max current_max_count].
  rewrite H. destruct (fr !! Int a) as [l|] eqn:E; cbn [default].
  - by rewrite Hp.
  - rewrite Hp. by rewrite insert_insert_eq.
Qed.

Lemma place_bid_printable (self : t) (b : string) (a : Z) :
  num_ltb (Int a) (min_bid self) = false ->
  printable (Int a) = true ->
  place_bid b a self =
    (if num_gtb (Int a) (current_max self) then Return tt
     else if num_eqb (Int a) (current_max self)
          then if_printable (printable (Int (current_max_count self + 1))) tt
          else Return tt,
     mk (min_bid self)
        (<[Int a := default [] (frequency self !! Int a) ++ [b]]> (frequency self))
        (if num_gtb (Int a) (current_max self) then Int a else current_max self)
        (if num_gtb (Int a) (current_max self) then 1
         else if num_eqb (Int a) (current_max self)
              then current_max_count self + 1
              else current_max_count self)).
Proof.
  intros H Hp. destruct self as [mb fr cm cnt]. cbn [min_bid] in H.
  cbv [place_bid frequency_append frequency_getitem bind get ret raise
    format_num set_frequency set_current_max set_current_max_count
    min_bid frequency current_max current_max_count if_printable].
  rewrite H.
  destruct (fr !! Int a) as [l|] eqn:E; cbn [default];
    rewrite ?insert_insert_eq, ?Hp; cbv beta iota.
  all: destruct (num_gtb (Int a) cm) eqn:Hgt; cbv beta iota;
    [by rewrite ?Hp|].
  all: destruct (num_eqb (Int a) cm) eqn:Heq; cbv beta iota; [|done].
  all: apply num_eqb_eq in Heq as <-; rewrite ?Hp; cbv beta iota.
  all: by destruct (printable (Int (cnt + 1))).
Qed.

Lemma place_bid_accepted_state (self : t) (b : string) (a : Z) :
  num_ltb (Int a) (min_bid self) = false ->
  snd (place_bid b a self) =
    mk (min_bid self)
       (<[Int a := default [] (frequency self !! Int a) ++ [b]]> (frequency self))
       (if printable (Int a) && num_gtb (Int a) (current_max self)
        then Int a else current_max self)
       (if printable (Int a)
        then if num_gtb (Int a) (current_max self) then 1
             else if num_eqb (Int a) (current_max self)
                  then current_max_count self + 1
                  else current_max_count self
        else current_max_count self).
Proof.
  intros H. destruct (printable (Int a)) eqn:Hp.
  - by rewrite place_bid_printable.
  - by rewrite place_bid_unprintable.
Qed.

Lemma close_auction_no_winner (self : t) :
  current_max_count self <> 1 ->
  close_auction false self =
    (if_printable
       (printable (current_max self) && printable (num_succ (current_max self)))
       None,
     self).
Proof.
  intros H. cbv [close_auction bind get ret format_num raise if_printable].
  apply Z.eqb_neq in H. rewrite H. cbn [orb].
  destruct (printable (current_max self)); [|done].
  by destruct (printable (num_succ (current_max self))).
Qed.

Lemma close_auction_winner_branch (self : t) (tb : bool) :
  (current_max_count self =? 1) || tb = true ->
  close_auction tb self =
    match frequency self !! current_max self with
    | Some (w :: _) => (if_printable (printable (current_max self)) (Some w), self)
    | Some [] => (Raise IndexError, self)
    | None =>
        (Raise IndexError,
         mk (min_bid self) (<[current_max self := []]> (frequency self))
            (current_max self) (current_max_count self))
    end.
Proof.
  intros H. cbv [close_auction frequency_getitem list_getitem0 bind get
    ret raise set_frequency format_num if_printable]. rewrite H.
  destruct (frequency self !! current_max self) as [[|w l]|];
    destruct self as [mb fr cm cnt]; cbn [current_max]; try done.
  by destruct (printable cm).
Qed.

Lemma restart_auction_eq (self : t) :
  restart_auction self =
    (if_printable (printable (num_succ (current_max self))) tt,
     mk (num_succ (current_max self)) ∅ NegInf 0).
Proof.
  cbv [restart_auction bind get ret raise format_num set_min_bid set_frequency
    set_current_max set_current_max_count min_bid frequency current_max
    current_max_count if_printable].
  by destruct (printable (num_succ _)).
Qed.

(** ** Facts about round histories *)

Lemma bidders_at_snoc (a : Z) (log : list bid) (b : string) (a' : Z) :
  bidders_at a (log ++ [(b, a')]) =
    bidders_at a log ++ (if decide (a' = a) then [b] else []).
Proof.
  unfold bidders_at. rewrite filter_app, map_app. f_equal.
  rewrite filter_cons, filter_nil. simpl. by destruct (decide (a' = a)).
Qed.

Lemma max_amount_snoc (log : list bid) (x : bid) :
  max_amount (log ++ [x]) = num_max (max_amount log) (Int (snd x)).
Proof. unfold max_amount. by rewrite fold_left_app. Qed.

Lemma count_amount_snoc (m : num) (log : list bid) (x : bid) :
  count_amount m (log ++ [x]) =
    count_amount m log + (if decide (Int (snd x) = m) then 1 else 0).
Proof.
  unfold count_amount. rewrite filter_app, length_app, filter_cons, filter_nil.
  rewrite Nat2Z.inj_add.
  destruct (decide (Int (snd x) = m)); cbn [length]; reflexivity.
Qed.

Lemma max_amount_upper (log : list bid) (x : bid) :
  x ∈ log -> num_le (Int (snd x)) (max_amount log).
Proof.
  induction log as [|y log IH] using rev_ind; intros Hx.
  - by apply elem_of_nil in Hx.
  - rewrite max_amount_snoc. apply elem_of_app in Hx as [Hx|Hx].
    + eapply num_le_trans; [by apply IH | apply num_max_le_l].
    + apply list_elem_of_singleton in Hx as ->. apply num_max_le_r.
Qed.

Lemma max_amount_attained (log : list bid) :
  log <> [] -> exists x, x ∈ log /\ max_amount log = Int (snd x).
Proof.
  induction log as [|y log IH] using rev_ind; intros Hne; [done|].
  rewrite max_amount_snoc. unfold num_max.
  destruct (num_ltb (max_amount log) (Int (snd y))) eqn:E.
  - exists y. split; [|done]. apply elem_of_app. right. by apply list_elem_of_singleton.
  - destruct log as [|z log'].
    + simpl in E. done.
    + destruct IH as [x [Hx Hm]]; [done|].
      exists x. split; [|done]. apply elem_of_app. by left.
Qed.

Lemma max_amount_nil_iff (log : list bid) :
  max_amount log = NegInf <-> log = [].
Proof.
  split; [|by intros ->].
  intros H. destruct log as [|x log]; [done|].
  destruct (max_amount_attained (x :: log)) as [y [_ Hy]]; [done|]. congruence.
Qed.

Lemma count_amount_zero (m : num) (log : list bid) :
  (forall x, x ∈ log -> Int (snd x) <> m) -> count_amount m log = 0.
Proof.
  intros H. unfold count_amount.
  replace (filter (fun b : bid => Int (snd b) = m) log) with (@nil bid); [done|].
  symmetry. induction log as [|y log IH]; [done|].
  rewrite filter_cons. destruct (decide (Int (snd y) = m)) as [Heq|_].
  - exfalso. eapply H; [|exact Heq]. by left.
  - apply IH. intros x Hx. apply H. by right.
Qed.

Lemma count_amount_above_max (log : list bid) (a : Z) :
  num_ltb (max_amount log) (Int a) = true -> count_amount (Int a) log = 0.
Proof.
  intros Hlt. apply count_amount_zero. intros x Hx Heq.
  pose proof (max_amount_upper log x Hx) as Hle.
  rewrite Heq in Hle. unfold num_le in Hle. congruence.
Qed.

Lemma bidders_at_length (a : Z) (log : list bid) :
  Z.of_nat (length (bidders_at a log)) = count_amount (Int a) log.
Proof.
  unfold bidders_at, count_amount. rewrite length_map. f_equal. f_equal.
  induction log as [|y log IH]; [done|].
  rewrite !filter_cons.
  destruct (decide (snd y = a)) as [->|Hne].
  - rewrite decide_True by done. by f_equal.
  - rewrite decide_False by congruence. done.
Qed.

Lemma bidders_at_elem (a : Z) (log : list bid) (x : bid) :
  x ∈ log -> snd x = a -> bidders_at a log <> [].
Proof.
  intros Hx Ha Hnil.
  assert (fst x ∈ bidders_at a log) as Hin.
  { unfold bidders_at. apply list_elem_of_fmap. exists x. split; [done|].
    by apply list_elem_of_filter. }
  rewrite Hnil in Hin. by apply elem_of_nil in Hin.
Qed.

Lemma bidders_at_max (log : list bid) (m : Z) :
  max_amount log = Int m -> bidders_at m log <> [].
Proof.
  intros Hm. destruct log as [|y log]; [done|].
  destruct (max_amount_attained (y :: log)) as [x [Hx Hx']]; [done|].
  apply (bidders_at_elem m _ x Hx). congruence.
Qed.

Lemma bidders_at_none (a : Z) (log : list bid) :
  bidders_at a log = [] -> forall x, x ∈ log -> snd x <> a.
Proof. intros Hnil x Hx Ha. by eapply bidders_at_elem. Qed.

Lemma tallied_snoc (log : list bid) (x : bid) :
  tallied (log ++ [x]) =
    tallied log ++ (if printable (Int (snd x)) then [x] else []).
Proof.
  unfold tallied. rewrite filter_app, filter_cons, filter_nil.
  destruct (printable (Int (snd x))) eqn:E.
  - by rewrite decide_True.
  - by rewrite decide_False by congruence.
Qed.

Lemma tallied_elem (log : list bid) (x : bid) :
  x ∈ tallied log <-> printable (Int (snd x)) = true /\ x ∈ log.
Proof.
  unfold tallied.
  apply (list_elem_of_filter (fun b : bid => printable (Int (snd b)) = true)).
Qed.

Lemma bidders_at_tallied (m : Z) (log : list bid) :
  printable (Int m) = true -> bidders_at m (tallied log) = bidders_at m log.
Proof.
  intros Hp. unfold bidders_at, tallied. f_equal.
  induction log as [|x log IH]; [done|].
  rewrite (filter_cons (fun b : bid => snd b = m)).
  rewrite (filter_cons (fun b : bid => printable (Int (snd b)) = true)).
  destruct (decide (snd x = m)) as [Hx|Hx].
  - rewrite decide_True by by rewrite Hx.
    rewrite filter_cons, decide_True by done. by f_equal.
  - destruct (decide (printable (Int (snd x)) = true)); [|done].
    by rewrite filter_cons, decide_False.
Qed.

Lemma max_tallied_printable (log : list bid) (m : Z) :
  max_amount (tallied log) = Int m -> printable (Int m) = true.
Proof.
  intros Hm. destruct (tallied log) as [|y l] eqn:E; [done|].
  destruct (max_amount_attained (y :: l)) as (x & Hx & Hmx); [done|].
  rewrite <- E in Hx. apply tallied_elem in Hx as [Hp _]. congruence.
Qed.

(** ** The ledger represents the round history *)

Lemma Rep_init (floor : Z) : Rep (init floor) [].
Proof.
  split; simpl.
  - intros a. apply lookup_empty.
  - left. apply lookup_empty.
  - done.
  - done.
  - constructor.
Qed.

Lemma Rep_restart (self : t) : Rep (snd (restart_auction self)) [].
Proof.
  rewrite restart_auction_eq. split; simpl.
  - intros a. apply lookup_empty.
  - left. apply lookup_empty.
  - done.
  - done.
  - constructor.
Qed.

Lemma Rep_place_bid (self : t) (log : list bid) (b : string) (a : Z) :
  Rep self log ->
  Rep (snd (place_bid b a self)) (log_step (PlaceBid b a) self log).
Proof.
  intros [Hent Hsen Hmax Hcnt Hfl]. unfold log_step, accepted.
  destruct (num_ltb (Int a) (min_bid self)) eqn:Hlt; cbn [negb].
  { rewrite place_bid_rejected by done. by split. }
  rewrite place_bid_accepted_state by done.
  unfold num_gtb. rewrite Hmax.
  split; cbn [frequency current_max current_max_count min_bid].
  - intros a'. rewrite bidders_at_snoc.
    destruct (decide (a = a')) as [<-|Hne].
    + rewrite lookup_insert_eq, Hent.
      destruct (bidders_at a log); reflexivity.
    + rewrite lookup_insert_ne by congruence.
      rewrite Hent. by rewrite app_nil_r.
  - by rewrite lookup_insert_ne.
  - rewrite tallied_snoc. cbn [snd].
    destruct (printable (Int a)); cbn [andb].
    + rewrite max_amount_snoc. reflexivity.
    + by rewrite app_nil_r.
  - rewrite tallied_snoc. cbn [snd].
    destruct (printable (Int a)); [|by rewrite app_nil_r].
    rewrite max_amount_snoc. unfold num_max. cbn [snd].
    rewrite count_amount_snoc. cbn [snd].
    destruct (num_ltb (max_amount (tallied log)) (Int a)) eqn:Hgt.
    + rewrite count_amount_above_max by done. by rewrite decide_True.
    + destruct (num_eqb (Int a) (max_amount (tallied log))) eqn:Heq.
      * apply num_eqb_eq in Heq. rewrite decide_True by done. by rewrite Hcnt.
      * rewrite decide_False; [rewrite Hcnt; symmetry; apply Z.add_0_r |].
        intros Heq'. apply num_eqb_eq in Heq'. congruence.
  - apply Forall_app. split; [done|]. by repeat constructor.
Qed.

Lemma Rep_close_auction (self : t) (log : list bid) (tb : bool) :
  Rep self log -> Rep (snd (close_auction tb self)) log.
Proof.
  intros HR. destruct ((current_max_count self =? 1) || tb) eqn:Hb.
  - rewrite close_auction_winner_branch by done.
    destruct (frequency self !! current_max self) as [[|w l]|] eqn:E;
      cbn [snd]; try done.
    destruct HR as [Hent Hsen Hmax Hcnt Hfl].
    destruct (current_max self) as [|m] eqn:Hcm.
    + split; cbn [frequency current_max current_max_count min_bid]; try done.
      * intros a. by rewrite lookup_insert_ne.
      * right. apply lookup_insert_eq.
    + exfalso. rewrite Hent in E. symmetry in Hmax.
      pose proof (max_tallied_printable _ _ Hmax) as Hp.
      apply bidders_at_max in Hmax. rewrite bidders_at_tallied in Hmax by done.
      by destruct (bidders_at m log).
  - apply orb_false_iff in Hb as [Hc ->].
    rewrite close_auction_no_winner; [done|]. by apply Z.eqb_neq.
Qed.

Lemma Rep_exec (c : call) (self : t) (log : list bid) :
  Rep self log -> Rep (exec c self) (log_step c self log).
Proof.
  destruct c as [b a|tb|]; simpl.
  - apply Rep_place_bid.
  - apply Rep_close_auction.
  - intros _. apply Rep_restart.
Qed.

Lemma Rep_run_log (cs : list call) (self : t) (log : list bid) :
  Rep self log ->
  Rep (fst (run_log cs self log)) (snd (run_log cs self log)).
Proof.
  revert self log. induction cs as [|c cs IH]; intros self log HR; [done|].
  simpl. apply IH. by apply Rep_exec.
Qed.

Lemma run_log_fst (cs : list call) (self : t) (log : list bid) :
  fst (run_log cs self log) = run cs self.
Proof.
  revert self log. induction cs as [|c cs IH]; intros self log; [done|].
  simpl. apply IH.
Qed.

Lemma Rep_reachable (floor : Z) (cs : list call) :
  Rep (run cs (init floor)) (snd (run_log cs (init floor) [])).
Proof.
  rewrite <- (run_log_fst cs (init floor) []).
  apply Rep_run_log, Rep_init.
Qed.

(** ** Placing bids *)

Lemma place_bid_min_bid (self : t) (b : string) (a : Z) :
  min_bid (snd (place_bid b a self)) = min_bid self.
Proof.
  destruct (num_ltb (Int a) (min_bid self)) eqn:Hlt.
  - by rewrite place_bid_rejected.
  - by rewrite place_bid_accepted_state.
Qed.

Lemma Tally_place_bid (self : t) (log : list bid) (b : string) (a : Z) :
  num_le (min_bid self) (Int a) ->
  Tally self log ->
  Tally (snd (place_bid b a self))
        (log ++ (if printable (Int a) then [(b, a)] else [])).
Proof.
  intros Hle [Hmax Hcnt]. unfold num_le in Hle.
  rewrite place_bid_accepted_state by done. unfold Tally, num_gtb.
  cbn [current_max current_max_count].
  destruct (printable (Int a)); cbn [andb]; [|by rewrite app_nil_r].
  rewrite max_amount_snoc, count_amount_snoc, Hmax. unfold num_max. cbn [snd].
  split; [done|].
  destruct (num_ltb (max_amount log) (Int a)) eqn:Hgt.
  - rewrite count_amount_above_max by done. by rewrite decide_True.
  - rewrite Hcnt, Hmax.
    destruct (num_eqb (Int a) (max_amount log)) eqn:Heq.
    + apply num_eqb_eq in Heq. by rewrite decide_True.
    + rewrite decide_False; [symmetry; apply Z.add_0_r |].
      intros Heq'. apply num_eqb_eq in Heq'. congruence.
Qed.

Lemma run_snoc (cs : list call) (c : call) (self : t) :
  run (cs ++ [c]) self = exec c (run cs self).
Proof. unfold run. by rewrite fold_left_app. Qed.

Lemma place_all_snoc (bids : list bid) (x : bid) :
  place_all (bids ++ [x]) = place_all bids ++ [PlaceBid (fst x) (snd x)].
Proof. unfold place_all. by rewrite map_app. Qed.

Lemma run_place_all (self : t) (bids : list bid) :
  fresh self ->
  Forall (fun b => num_le (min_bid self) (Int (snd b))) bids ->
  Tally (run (place_all bids) self) (tallied bids) /\
  min_bid (run (place_all bids) self) = min_bid self.
Proof.
  intros [Hm Hc]. induction bids as [|[b a] bids IH] using rev_ind; intros Hall.
  - by repeat split.
  - apply Forall_app in Hall as [Hall Hx].
    apply Forall_cons in Hx as [Hx _]. cbn [snd] in Hx.
    destruct (IH Hall) as [HT Hmb].
    rewrite place_all_snoc, run_snoc, tallied_snoc. cbn [exec fst snd]. split.
    + apply Tally_place_bid; [by rewrite Hmb | done].
    + by rewrite place_bid_min_bid.
Qed.

Lemma tallied_all (bids : list bid) :
  Forall (fun b => printable (Int (snd b)) = true) bids -> tallied bids = bids.
Proof.
  induction 1 as [|x l Hx _ IH]; [done|].
  unfold tallied in *. rewrite filter_cons, decide_True by done. by f_equal.
Qed.

(** ** An amount too long to format *)

Lemma too_long_unprintable : printable (Int too_long) = false.
Proof. vm_compute. reflexivity. Qed.

Lemma too_long_pred_printable : printable (Int (too_long - 1)) = true.
Proof. vm_compute. reflexivity. Qed.

Lemma too_long_above_ten : num_ltb (Int too_long) (Int 10) = false.
Proof. vm_compute. reflexivity. Qed.

Lemma too_long_pred_above_ten : num_ltb (Int (too_long - 1)) (Int 10) = false.
Proof. vm_compute. reflexivity. Qed.

Lemma place_bid_unprintable_init (floor a : Z) (b : string) :
  num_ltb (Int a) (Int floor) = false ->
  printable (Int a) = false ->
  place_bid b a (init floor) =
    (Raise ValueError, mk (Int floor) (<[Int a := [b]]> ∅) NegInf 0).
Proof.
  intros Hfl Hp. rewrite place_bid_unprintable by done.
  cbn [init min_bid frequency current_max current_max_count].
  by rewrite lookup_empty.
Qed.

(** C1: on a new ledger with floor 10, [place_bid("A", 10**4300)] stores
    the bid in [frequency] and then raises [ValueError] while formatting the
    log line, before the running maximum is touched: [current_max] stays
    unset and [current_max_count] 0, although the maximum of the accepted
    amounts is [10**4300]. *)
Theorem C1_long_bid_stored_not_tallied :
  num_le (min_bid (init 10)) (Int too_long) /\
  fst (place_bid "A" too_long (init 10)) = Raise ValueError /\
  frequency (run (place_all [("A", too_long)]) (init 10)) !! Int too_long =
    Some ["A"] /\
  current_max (run (place_all [("A", too_long)]) (init 10)) = NegInf /\
  current_max_count (run (place_all [("A", too_long)]) (init 10)) = 0 /\
  max_amount [("A", too_long)] = Int too_long.
Proof.
  change (run (place_all [("A", too_long)]) (init 10))
    with (snd (place_bid "A" too_long (init 10))).
  rewrite (place_bid_unprintable_init 10 too_long "A" too_long_above_ten
             too_long_unprintable).
  cbn [fst snd frequency current_max current_max_count].
  split; [exact too_long_above_ten|]. split; [done|].
  split; [apply lookup_insert_eq|]. done.
Qed.

(** ** Closing the round *)

Lemma length_one_tail {A} (w : A) (rest : list A) :
  Z.of_nat (length (w :: rest)) = 1 -> rest = [].
Proof.
  destruct rest; [done|]. cbn [length]. rewrite !Nat2Z.inj_succ. lia.
Qed.

(** C2: the ledger left by [place_bid("A", 10**4300)] on a new ledger with
    floor 10 holds one accepted bid, yet [close_auction(True)] on it raises
    [IndexError] instead of returning the first bidder: [current_max] was
    never set, so the lookup is made at the key [-inf]. *)
Theorem C2_accepted_bid_without_winner :
  snd (run_log [PlaceBid "A" too_long] (init 10) []) = [("A", too_long)] /\
  frequency (run [PlaceBid "A" too_long] (init 10)) !! Int too_long =
    Some ["A"] /\
  current_max (run [PlaceBid "A" too_long] (init 10)) = NegInf /\
  fst (close_auction true (run [PlaceBid "A" too_long] (init 10))) =
    Raise IndexError.
Proof.
  split.
  { cbn [run_log log_step snd]. unfold accepted. cbn [init min_bid].
    by rewrite too_long_above_ten. }
  change (run [PlaceBid "A" too_long] (init 10))
    with (snd (place_bid "A" too_long (init 10))).
  rewrite (place_bid_unprintable_init 10 too_long "A" too_long_above_ten
             too_long_unprintable).
  cbn [snd frequency current_max].
  split; [apply lookup_insert_eq|]. split; [done|].
  rewrite close_auction_winner_branch by done.
  cbn [frequency current_max]. by rewrite lookup_insert_ne.
Qed.

Lemma two_bids_at (floor m : Z) (b1 b2 : string) :
  num_ltb (Int m) (Int floor) = false ->
  printable (Int m) = true ->
  exists fr,
    run [PlaceBid b1 m; PlaceBid b2 m] (init floor) = mk (Int floor) fr (Int m) 2.
Proof.
  intros Hfl Hp.
  change (run [PlaceBid b1 m; PlaceBid b2 m] (init floor))
    with (snd (place_bid b2 m (snd (place_bid b1 m (init floor))))).
  rewrite (place_bid_accepted_state (init floor)) by done.
  cbn [init min_bid frequency current_max current_max_count num_gtb num_ltb].
  rewrite Hp. cbn [andb].
  rewrite place_bid_accepted_state by done.
  cbn [min_bid frequency current_max current_max_count num_gtb num_ltb num_eqb].
  rewrite Hp, Z.ltb_irrefl, Z.eqb_refl. cbn [andb]. by eexists.
Qed.

(** C3: after two accepted bids of [10**4300 - 1] on a new ledger with
    floor 10 the count is 2, and [close_auction(False)] raises [ValueError]
    while formatting [current_max + 1] for its log line, where [None] was
    to be returned; the ledger is left as it was. *)
Theorem C3_tie_at_longest_amount_raises :
  current_max
    (run [PlaceBid "A" (too_long - 1); PlaceBid "B" (too_long - 1)] (init 10)) =
    Int (too_long - 1) /\
  current_max_count
    (run [PlaceBid "A" (too_long - 1); PlaceBid "B" (too_long - 1)] (init 10)) =
    2 /\
  close_auction false
    (run [PlaceBid "A" (too_long - 1); PlaceBid "B" (too_long - 1)] (init 10)) =
    (Raise ValueError,
     run [PlaceBid "A" (too_long - 1); PlaceBid "B" (too_long - 1)] (init 10)).
Proof.
  destruct (two_bids_at 10 (too_long - 1) "A" "B" too_long_pred_above_ten
              too_long_pred_printable) as [fr ->].
  cbn [current_max current_max_count]. split; [done|]. split; [done|].
  rewrite close_auction_no_winner by done.
  cbn [current_max num_succ]. rewrite too_long_pred_printable.
  replace (too_long - 1 + 1) with too_long by lia.
  by rewrite too_long_unprintable.
Qed.

(** C4: a [place_bid] with an amount below the floor leaves the ledger
    exactly as it was: [frequency] (so the amount is not added as a key),
    [min_bid], [current_max] and [current_max_count] are unchanged.  The call
    returns, unless the amount or the floor is too long for its log line. *)
Theorem C4_bid_below_floor_rejected (self : t) (b : string) (a : Z) :
  num_lt (Int a) (min_bid self) ->
  snd (place_bid b a self) = self /\
  frequency (snd (place_bid b a self)) !! Int a = frequency self !! Int a /\
  min_bid (snd (place_bid b a self)) = min_bid self /\
  current_max (snd (place_bid b a self)) = current_max self /\
  current_max_count (snd (place_bid b a self)) = current_max_count self /\
  fst (place_bid b a self) =
    if_printable (printable (Int a) && printable (min_bid self)) tt.
Proof.
  intros H. by rewrite place_bid_rejected.
Qed.

Lemma C4_witness :
  snd (place_bid "BidderY" 5 (init 10)) = init 10.
Proof.
  apply (C4_bid_below_floor_rejected (init 10) "BidderY" 5).
  reflexivity.
Defined.

(** C5: when [current_max] is an amount [m], the ledger after
    [restart_auction] has floor [m + 1], an empty [frequency], [current_max]
    unset and [current_max_count] 0; a later [place_bid] at [m] is rejected:
    it leaves that ledger as it is. *)
Theorem C5_restart_raises_floor (self : t) (m : Z) :
  current_max self = Int m ->
  snd (restart_auction self) = mk (Int (m + 1)) ∅ NegInf 0 /\
  forall b, snd (place_bid b m (snd (restart_auction self))) =
              snd (restart_auction self).
Proof.
  intros H. rewrite restart_auction_eq, H. cbn [snd num_succ]. split; [done|].
  intros b. rewrite place_bid_rejected; [done|]. cbn. apply Z.ltb_lt. lia.
Qed.

Lemma C5_witness :
  snd (restart_auction (run scenario (init 10))) =
    mk (Int (20 + 1)) ∅ NegInf 0 /\
  forall b, snd (place_bid b 20 (snd (restart_auction (run scenario (init 10))))) =
              snd (restart_auction (run scenario (init 10))).
Proof.
  apply (C5_restart_raises_floor (run scenario (init 10)) 20).
  reflexivity.
Defined.

Lemma close_auction_returns_readonly (self : t) (tb : bool) (r : option string) :
  fst (close_auction tb self) = Return r ->
  snd (close_auction tb self) = self.
Proof.
  destruct ((current_max_count self =? 1) || tb) eqn:Hb.
  - rewrite close_auction_winner_branch by done.
    by destruct (frequency self !! current_max self) as [[|w l]|].
  - apply orb_false_iff in Hb as [Hc ->].
    rewrite close_auction_no_winner; [done|]. by apply Z.eqb_neq.
Qed.

Lemma close_auction_twice (self : t) (tb : bool) :
  close_auction tb (snd (close_auction tb self)) = close_auction tb self.
Proof.
  destruct ((current_max_count self =? 1) || tb) eqn:Hb.
  - rewrite (close_auction_winner_branch self) by done.
    destruct (frequency self !! current_max self) as [[|w l]|] eqn:E; cbn [snd].
    + rewrite close_auction_winner_branch by done. by rewrite E.
    + rewrite close_auction_winner_branch by done. by rewrite E.
    + rewrite close_auction_winner_branch by done.
      cbn [frequency current_max min_bid current_max_count].
      by rewrite lookup_insert_eq.
  - apply orb_false_iff in Hb as [Hc ->].
    assert (current_max_count self <> 1) as Hne by by apply Z.eqb_neq.
    rewrite (close_auction_no_winner self) by done. cbn [snd].
    by rewrite close_auction_no_winner.
Qed.

Lemma close_auction_true_init (floor : Z) :
  close_auction true (init floor) =
    (Raise IndexError, mk (Int floor) (<[NegInf := []]> ∅) NegInf 0).
Proof.
  rewrite close_auction_winner_branch by done. cbn [init frequency current_max].
  by rewrite lookup_empty.
Qed.

(** C7: on a new ledger with floor 10, [close_auction(True)] raises
    [IndexError] after the [defaultdict] lookup has bound the key [-inf] to an
    empty list: the ledger is not what it was before the call. *)
Theorem C7_close_mutates_empty_ledger :
  close_auction true (init 10) =
    (Raise IndexError, mk (Int 10) (<[NegInf := []]> ∅) NegInf 0) /\
  frequency (init 10) !! NegInf = None /\
  frequency (snd (close_auction true (init 10))) !! NegInf = Some [] /\
  snd (close_auction true (init 10)) <> init 10.
Proof.
  rewrite close_auction_true_init. cbn [snd frequency init].
  split; [reflexivity|]. split; [apply lookup_empty|].
  split; [apply lookup_insert_eq|].
  intros Hs.
  apply (f_equal (fun s => frequency s !! NegInf)) in Hs.
  unfold init in Hs. cbn [frequency] in Hs.
  by rewrite lookup_insert_eq, lookup_empty in Hs.
Qed.

(** ** What a reachable ledger knows about its round *)

Lemma Rep_max_entry (self : t) (log : list bid) (m : Z) :
  Rep self log -> current_max self = Int m ->
  printable (Int m) = true /\
  exists w rest,
    bidders_at m log = w :: rest /\
    frequency self !! Int m = Some (w :: rest) /\
    current_max_count self = Z.of_nat (length (w :: rest)).
Proof.
  intros [Hent _ Hmax Hcnt _] Hm.
  rewrite Hm in Hmax. symmetry in Hmax.
  pose proof (max_tallied_printable log m Hmax) as Hp. split; [done|].
  pose proof (bidders_at_max (tallied log) m Hmax) as Hne.
  rewrite bidders_at_tallied in Hne by done.
  specialize (Hent m).
  rewrite Hcnt, Hmax, <- bidders_at_length, bidders_at_tallied by done.
  destruct (bidders_at m log) as [|w rest]; [done|]. by exists w, rest.
Qed.

Lemma Rep_unset (self : t) (log : list bid) :
  Rep self log -> current_max self = NegInf ->
  tallied log = [] /\ current_max_count self = 0.
Proof.
  intros [_ _ Hmax Hcnt _] Hm. rewrite Hm in Hmax. symmetry in Hmax.
  apply max_amount_nil_iff in Hmax. by rewrite Hcnt, Hmax.
Qed.

(** C9: in a ledger reached from construction whose round has no accepted
    bid ([current_max] unset), [close_auction(True)] takes the winner branch,
    reads an empty list at the sentinel key and raises [IndexError]: no
    winner is returned. *)
Theorem C9_close_with_tie_breaker_no_bids (floor : Z) (cs : list call) :
  current_max (run cs (init floor)) = NegInf ->
  fst (close_auction true (run cs (init floor))) = Raise IndexError /\
  current_max_count (run cs (init floor)) = 0.
Proof.
  intros Hcm. pose proof (Rep_reachable floor cs) as HR. split.
  - rewrite close_auction_winner_branch by apply orb_true_r.
    rewrite Hcm. by destruct HR as [_ [-> | ->] _ _ _].
  - by destruct (Rep_unset _ _ HR Hcm).
Qed.

Lemma C9_witness :
  fst (close_auction true (run [PlaceBid "BidderY" 5] (init 10))) =
    Raise IndexError /\
  current_max_count (run [PlaceBid "BidderY" 5] (init 10)) = 0.
Proof.
  apply (C9_close_with_tie_breaker_no_bids 10 [PlaceBid "BidderY" 5]).
  reflexivity.
Defined.

(** C10: with [current_max_count] 0 and [current_max] unset, as in a ledger
    with no accepted bid, and in every ledger reached from construction
    whose count is 0, [close_auction(False)] returns [None] and leaves the
    ledger as it was. *)
Theorem C10_close_without_tie_breaker_no_bids (self : t) :
  current_max_count self = 0 ->
  current_max self = NegInf \/ (exists floor cs, self = run cs (init floor)) ->
  close_auction false self = (Return None, self).
Proof.
  intros Hc Hs.
  assert (current_max self = NegInf) as Hm.
  { destruct Hs as [Hm | (floor & cs & ->)]; [done|].
    destruct (current_max (run cs (init floor))) as [|m] eqn:Hm; [done|].
    destruct (Rep_max_entry _ _ m (Rep_reachable floor cs) Hm)
      as (_ & w & rest & _ & _ & Hn).
    rewrite Hc in Hn. cbn [length] in Hn. rewrite Nat2Z.inj_succ in Hn. lia. }
  rewrite close_auction_no_winner by lia. by rewrite Hm.
Qed.

Lemma C10_witness :
  close_auction false (init 10) = (Return None, init 10).
Proof.
  apply (C10_close_without_tie_breaker_no_bids (init 10)).
  - reflexivity.
  - left. reflexivity.
Defined.

(** ** Restarting with no bids *)

(** On a new ledger with floor 10 and no bid, [restart_auction] returns
    normally and the floor becomes [-inf]: the call neither fails nor keeps
    the floor. *)
Lemma C8_counterexample :
  current_max (init 10) = NegInf /\
  restart_auction (init 10) = (Return tt, mk NegInf ∅ NegInf 0) /\
  ~ restart_guarded (init 10).
Proof.
  split; [done|]. split; [done|].
  unfold restart_guarded. rewrite restart_auction_eq. cbn.
  intros [H|H]; discriminate.
Qed.

(** C8, amended: [restart_auction] on a ledger whose [current_max] is unset
    is not guarded and does not fail: it returns normally with the floor set
    to the sentinel itself ([-inf + 1 = -inf]), [frequency] empty,
    [current_max] unset and [current_max_count] 0. *)
Theorem C8_restart_with_no_bids (self : t) :
  current_max self = NegInf ->
  restart_auction self = (Return tt, mk NegInf ∅ NegInf 0).
Proof. intros H. by rewrite restart_auction_eq, H. Qed.

Lemma C8_witness :
  restart_auction (init 10) = (Return tt, mk NegInf ∅ NegInf 0).
Proof.
  apply (C8_restart_with_no_bids (init 10)).
  reflexivity.
Defined.

(** ** Invariants of reachable ledgers *)

Lemma bidders_at_witness (a : Z) (log : list bid) :
  bidders_at a log <> [] -> exists x, x ∈ log /\ snd x = a.
Proof.
  intros Hne. destruct (bidders_at a log) as [|w l] eqn:E; [done|].
  assert (w ∈ bidders_at a log) as Hin by (rewrite E; by left).
  unfold bidders_at in Hin. apply list_elem_of_fmap in Hin as [x [_ Hx]].
  apply list_elem_of_filter in Hx as [Ha Hx]. by exists x.
Qed.

Lemma entry_Some (l l' : list string) : entry l = Some l' -> l = l' /\ l <> [].
Proof. destruct l; [done|]. cbn. intros [= <-]. done. Qed.

Lemma Rep_amount_keys (self : t) (log : list bid) (a : Z) (l : list string) :
  Rep self log -> frequency self !! Int a = Some l ->
  num_le (min_bid self) (Int a) /\
  (printable (Int a) = true -> num_le (Int a) (current_max self)).
Proof.
  intros [Hent _ Hmax _ Hfl] Hl. rewrite Hent in Hl.
  apply entry_Some in Hl as [_ Hne].
  apply bidders_at_witness in Hne as [x [Hx <-]]. split.
  - rewrite Forall_forall in Hfl. by apply Hfl.
  - intros Hp. rewrite Hmax. apply max_amount_upper. by apply tallied_elem.
Qed.

Lemma Rep_count_is_length (self : t) (log : list bid) :
  Rep self log -> count_is_length self.
Proof.
  intros HR m Hm.
  destruct (Rep_max_entry self log m HR Hm) as (_ & w & rest & _ & Hl & Hn).
  by exists (w :: rest).
Qed.

(** What holds of every ledger reached from construction, whether or not a
    call raised on the way: every amount that is a key is at least the floor,
    [current_max_count] is the length of the list at [current_max], and
    [current_max] is a key that no key whose amount can be formatted
    exceeds. *)
Lemma reachable_invariants (floor : Z) (cs : list call) :
  (forall a l, frequency (run cs (init floor)) !! Int a = Some l ->
     num_le (min_bid (run cs (init floor))) (Int a)) /\
  count_is_length (run cs (init floor)) /\
  (forall m, current_max (run cs (init floor)) = Int m ->
     is_Some (frequency (run cs (init floor)) !! Int m) /\
     forall a l, frequency (run cs (init floor)) !! Int a = Some l ->
       printable (Int a) = true -> a <= m).
Proof.
  pose proof (Rep_reachable floor cs) as HR. split; [|split].
  - intros a l Hl. by eapply Rep_amount_keys.
  - by eapply Rep_count_is_length.
  - intros m Hm. split.
    + destruct (Rep_max_entry _ _ m HR Hm) as (_ & w & rest & _ & -> & _). done.
    + intros a l Hl Hp. apply num_le_Int. rewrite <- Hm.
      by eapply Rep_amount_keys.
Qed.

Lemma exec_sentinel_absent (c : call) (self : t) :
  frequency self !! NegInf = None ->
  call_returns c self = true ->
  frequency (exec c self) !! NegInf = None.
Proof.
  intros Hs Hr. destruct c as [b a|tb|]; cbn [exec call_returns] in *.
  - destruct (num_ltb (Int a) (min_bid self)) eqn:Hlt.
    + by rewrite place_bid_rejected.
    + rewrite place_bid_accepted_state by done. cbn [frequency].
      by rewrite lookup_insert_ne.
  - unfold returns in Hr.
    destruct (fst (close_auction tb self)) as [r|e] eqn:E; [|done].
    by rewrite (close_auction_returns_readonly self tb r).
  - rewrite restart_auction_eq. apply lookup_empty.
Qed.

Lemma log_step_printable (c : call) (self : t) (log : list bid) :
  Forall (fun x => printable (Int (snd x)) = true) log ->
  call_returns c self = true ->
  Forall (fun x => printable (Int (snd x)) = true) (log_step c self log).
Proof.
  intros Hall Hr. destruct c as [b a|tb|]; cbn [log_step call_returns] in *;
    [|done|constructor].
  unfold accepted. destruct (num_ltb (Int a) (min_bid self)) eqn:Hlt; [done|].
  cbn [negb]. apply Forall_app. split; [done|]. repeat constructor. cbn [snd].
  destruct (printable (Int a)) eqn:Hp; [done|].
  by rewrite place_bid_unprintable in Hr.
Qed.

Lemma run_log_returning (cs : list call) (self : t) (log : list bid) :
  frequency self !! NegInf = None ->
  Forall (fun x => printable (Int (snd x)) = true) log ->
  all_return cs self = true ->
  frequency (run cs self) !! NegInf = None /\
  Forall (fun x => printable (Int (snd x)) = true) (snd (run_log cs self log)).
Proof.
  revert self log. induction cs as [|c cs IH]; intros self log Hs Hall Hr; [done|].
  cbn [all_return] in Hr. apply andb_true_iff in Hr as [Hc Hr].
  change (run (c :: cs) self) with (run cs (exec c self)). cbn [run_log].
  apply IH; [by apply exec_sentinel_absent | by apply log_step_printable | done].
Qed.

(** As long as no call raised, the three invariants hold as listed. *)
Lemma reachable_invariants_returning (floor : Z) (cs : list call) :
  all_return cs (init floor) = true ->
  keys_above_floor (run cs (init floor)) /\
  max_is_max_key (run cs (init floor)) /\
  count_is_length (run cs (init floor)).
Proof.
  intros Hr. pose proof (Rep_reachable floor cs) as HR.
  destruct (run_log_returning cs (init floor) [] (lookup_empty _)
              (Forall_nil_2 _) Hr) as [Hs Hall].
  split; [|split].
  - intros [|a] l Hl; [congruence|]. by eapply Rep_amount_keys.
  - intros m Hm. split.
    + destruct (Rep_max_entry _ _ m HR Hm) as (_ & w & rest & _ & -> & _). done.
    + intros [|a] l Hl; [apply num_le_neginf|]. rewrite <- Hm.
      eapply Rep_amount_keys; [done..|].
      destruct HR as [Hent _ _ _ _]. rewrite Hent in Hl.
      apply entry_Some in Hl as [_ Hne].
      apply bidders_at_witness in Hne as [x [Hx <-]].
      rewrite Forall_forall in Hall. by apply Hall.
  - by eapply Rep_count_is_length.
Qed.

(** C6: after [close_auction(True)] has raised on a new ledger with floor
    10, [frequency] holds the key [-inf], which is below the floor: the
    invariant that every key is at least the floor does not hold in that
    ledger. *)
Theorem C6_sentinel_key_below_floor :
  frequency (run [CloseAuction true] (init 10)) !! NegInf = Some [] /\
  min_bid (run [CloseAuction true] (init 10)) = Int 10 /\
  num_lt NegInf (Int 10) /\
  ~ keys_above_floor (run [CloseAuction true] (init 10)).
Proof.
  change (run [CloseAuction true] (init 10))
    with (snd (close_auction true (init 10))).
  rewrite close_auction_true_init. cbn [snd frequency min_bid].
  assert ((<[NegInf := []]> ∅ : gmap num (list string)) !! NegInf = Some [])
    as Hl by apply lookup_insert_eq.
  split; [done|]. split; [done|]. split; [done|].
  intros Hk. specialize (Hk NegInf [] Hl). done.
Qed.

(** ** The scenarios of the specification *)

Example scenario_tie_no_winner :
  fst (close_auction false (run scenario (init 10))) = Return None.
Proof. reflexivity. Qed.

Example scenario_restart_floor :
  min_bid (run (scenario ++ [CloseAuction false; RestartAuction]) (init 10)) =
    Int 21.
Proof. reflexivity. Qed.

Example scenario_bid_after_restart_rejected :
  run (scenario ++ [CloseAuction false; RestartAuction; PlaceBid "Bidder1" 20])
      (init 10) =
  run (scenario ++ [CloseAuction false; RestartAuction]) (init 10).
Proof. reflexivity. Qed.

Example scenario_tie_breaker_winner :
  fst (close_auction true (run scenario (init 10))) = Return (Some "Bidder2").
Proof. vm_compute. reflexivity. Qed.

Example scenario_unique_max :
  fst (close_auction false (run [PlaceBid "BidderX" 12] (init 10))) =
    Return (Some "BidderX").
Proof. vm_compute. reflexivity. Qed.

Example scenario_below_floor :
  run [PlaceBid "BidderY" 5] (init 10) = init 10.
Proof. reflexivity. Qed.

(** ** The example script, run *)

Example main_output :
  fst main =
    Return ["Restart auction with min bid: 21"; "Tie-breaker Winner: Bidder4"].
Proof. vm_compute. reflexivity. Qed.

Example main_final_floor : min_bid (snd main) = Int 21.
Proof. vm_compute. reflexivity. Qed.

(** ** Which calls raise what *)

Lemma raised_if_printable {A} (ok : bool) (a : A) (self : t) :
  raised (if_printable ok a, self) <> Some IndexError.
Proof. unfold raised. by destruct ok. Qed.

Lemma place_bid_no_index_error (self : t) (b : string) (a : Z) :
  raised (place_bid b a self) <> Some IndexError.
Proof.
  destruct (num_ltb (Int a) (min_bid self)) eqn:Hlt.
  - rewrite place_bid_rejected by done. apply raised_if_printable.
  - destruct (printable (Int a)) eqn:Hp.
    + rewrite place_bid_printable by done.
      destruct (num_gtb (Int a) (current_max self)); [done|].
      destruct (num_eqb (Int a) (current_max self)); [|done].
      apply raised_if_printable.
    + by rewrite place_bid_unprintable.
Qed.

Lemma Rep_close_index_error (self : t) (log : list bid) (tb : bool) :
  Rep self log ->
  raised (close_auction tb self) = Some IndexError <->
  tb = true /\ current_max self = NegInf.
Proof.
  intros HR. split.
  - intros Hr. destruct ((current_max_count self =? 1) || tb) eqn:Hb.
    + destruct (current_max self) as [|m] eqn:Hm.
      * destruct (Rep_unset self log HR Hm) as [_ Hc].
        rewrite Hc in Hb. by destruct tb.
      * destruct (Rep_max_entry self log m HR Hm) as (_ & w & rest & _ & Hl & _).
        rewrite close_auction_winner_branch in Hr by done.
        rewrite Hm, Hl in Hr. by apply raised_if_printable in Hr.
    + apply orb_false_iff in Hb as [Hc ->].
      rewrite close_auction_no_winner in Hr by by apply Z.eqb_neq.
      by apply raised_if_printable in Hr.
  - intros [-> Hm]. rewrite close_auction_winner_branch by apply orb_true_r.
    rewrite Hm. destruct HR as [_ [-> | ->] _ _ _]; done.
Qed.

(** X1: in a ledger reached from construction, the only call that raises
    [IndexError] is [close_auction] with the tie breaker on while
    [current_max] is unset; whatever else a call raises is the [ValueError]
    of a number too long for a log line. *)
Theorem index_error_iff (floor : Z) (cs : list call) (c : call) :
  call_raised c (run cs (init floor)) = Some IndexError <->
  c = CloseAuction true /\ current_max (run cs (init floor)) = NegInf.
Proof.
  pose proof (Rep_reachable floor cs) as HR.
  destruct c as [b a|tb|]; cbn [call_raised].
  - split; [|by intros [? _]]. intros Hr.
    by apply place_bid_no_index_error in Hr.
  - rewrite (Rep_close_index_error _ _ tb HR). split.
    + by intros [-> ?].
    + by intros [[= ->] ?].
  - split; [|by intros [? _]]. rewrite restart_auction_eq. intros Hr.
    by apply raised_if_printable in Hr.
Qed.

(** X2: in a reachable ledger [current_max_count] is never negative, and
    it is 0 exactly when [current_max] is unset. *)
Theorem count_zero_iff_unset (floor : Z) (cs : list call) :
  0 <= current_max_count (run cs (init floor)) /\
  (current_max_count (run cs (init floor)) = 0 <->
   current_max (run cs (init floor)) = NegInf).
Proof.
  pose proof (Rep_reachable floor cs) as HR.
  destruct (current_max (run cs (init floor))) as [|m] eqn:Hm.
  - destruct (Rep_unset _ _ HR Hm) as [_ ->]. done.
  - destruct (Rep_max_entry _ _ m HR Hm) as (_ & w & rest & _ & _ & ->).
    cbn [length]. rewrite Nat2Z.inj_succ. split; [lia|]. split; [lia|done].
Qed.

(** X3: a reachable ledger tallies its round whatever calls were made:
    [current_max] is the largest amount among the bids accepted since the
    last restart whose amount can be formatted, and [current_max_count] the
    number of them at that amount, with rejected bids, bids too long to
    format and [close_auction] calls (failed ones too) in between; every
    accepted amount is at least the floor. *)
Theorem reachable_tally (floor : Z) (cs : list call) :
  current_max (run cs (init floor)) =
    max_amount (tallied (snd (run_log cs (init floor) []))) /\
  current_max_count (run cs (init floor)) =
    count_amount (current_max (run cs (init floor)))
      (tallied (snd (run_log cs (init floor) []))) /\
  Forall (fun x => num_le (min_bid (run cs (init floor))) (Int (snd x)))
    (snd (run_log cs (init floor) [])).
Proof.
  destruct (Rep_reachable floor cs) as [_ _ Hmax Hcnt Hfl].
  split; [done|]. split; [by rewrite Hcnt, Hmax | done].
Qed.

(** X4: in a reachable ledger, [frequency] at an amount is the list of the
    bidders whose accepted bids of the round were at that amount, in the
    order of their calls; an amount nobody bid is not a key; and the only
    other key there can be is [-inf], bound to an empty list. *)
Theorem frequency_records_round (floor : Z) (cs : list call) :
  (forall a,
     bidders_at a (snd (run_log cs (init floor) [])) <> [] ->
     frequency (run cs (init floor)) !! Int a =
       Some (bidders_at a (snd (run_log cs (init floor) [])))) /\
  (forall a,
     bidders_at a (snd (run_log cs (init floor) [])) = [] ->
     frequency (run cs (init floor)) !! Int a = None) /\
  (forall l, frequency (run cs (init floor)) !! NegInf = Some l -> l = []).
Proof.
  destruct (Rep_reachable floor cs) as [Hent Hsen _ _ _].
  split; [|split].
  - intros a Hne. rewrite Hent.
    by destruct (bidders_at a (snd (run_log cs (init floor) []))).
  - intros a Hnil. by rewrite Hent, Hnil.
  - intros l Hl. destruct Hsen as [Hs|Hs]; rewrite Hs in Hl; congruence.
Qed.

(** X5: in a reachable ledger, [close_auction(False)] returns a winner [w]
    exactly when [current_max] is an amount [m] and the round's accepted
    bids at [m] are the single bid of [w]. *)
Theorem close_false_winner_iff (floor : Z) (cs : list call) (w : string) :
  fst (close_auction false (run cs (init floor))) = Return (Some w) <->
  exists m, current_max (run cs (init floor)) = Int m /\
            bidders_at m (snd (run_log cs (init floor) [])) = [w].
Proof.
  pose proof (Rep_reachable floor cs) as HR.
  set (s := run cs (init floor)) in *.
  set (log := snd (run_log cs (init floor) [])) in *.
  split.
  - intros Hr. destruct (current_max_count s =? 1) eqn:Hc.
    + apply Z.eqb_eq in Hc. destruct (current_max s) as [|m] eqn:Hm.
      * destruct (Rep_unset s log HR Hm) as [_ Hc0]. lia.
      * destruct (Rep_max_entry s log m HR Hm)
          as (Hp & w' & rest & Hb & Hl & Hn).
        rewrite close_auction_winner_branch in Hr
          by (apply orb_true_iff; left; by apply Z.eqb_eq).
        rewrite Hm, Hl, Hp in Hr. cbn in Hr. injection Hr as ->.
        rewrite Hc in Hn. symmetry in Hn. apply length_one_tail in Hn as ->.
        by exists m.
    + rewrite close_auction_no_winner in Hr by by apply Z.eqb_neq.
      cbn [fst] in Hr. unfold if_printable in Hr.
      by destruct (printable (current_max s) && printable (num_succ (current_max s))).
  - intros (m & Hm & Hb).
    destruct (Rep_max_entry s log m HR Hm) as (Hp & w' & rest & Hb' & Hl & Hn).
    rewrite Hb in Hb'. injection Hb' as <- <-.
    rewrite close_auction_winner_branch.
    + by rewrite Hm, Hl, Hp.
    + rewrite Hn. done.
Qed.

(** ** How a bid changes the outcome of closing *)

(** X6: a bid below the running maximum, accepted or not, does not change
    what [close_auction] answers, in any ledger and for either setting of
    the tie breaker. *)
Theorem lower_bid_keeps_close_result
  (self : t) (b : string) (a : Z) (tb : bool) :
  num_lt (Int a) (current_max self) ->
  fst (close_auction tb (snd (place_bid b a self))) =
    fst (close_auction tb self).
Proof.
  intros Hlt. destruct (current_max self) as [|m] eqn:Hm; [done|].
  unfold num_lt in Hlt. cbn in Hlt. apply Z.ltb_lt in Hlt.
  destruct (num_ltb (Int a) (min_bid self)) eqn:Hfl.
  { by rewrite place_bid_rejected. }
  rewrite place_bid_accepted_state by done. rewrite Hm.
  assert (num_gtb (Int a) (Int m) = false) as -> by (cbn; apply Z.ltb_ge; lia).
  assert (num_eqb (Int a) (Int m) = false) as -> by (cbn; apply Z.eqb_neq; lia).
  rewrite andb_false_r.
  assert ((if printable (Int a) then current_max_count self
           else current_max_count self) = current_max_count self) as ->
    by by destruct (printable (Int a)).
  destruct ((current_max_count self =? 1) || tb) eqn:Hb.
  - rewrite !close_auction_winner_branch by done.
    cbn [frequency current_max]. rewrite Hm.
    rewrite lookup_insert_ne by (intros [= ?]; lia).
    by destruct (frequency self !! Int m) as [[|w l]|].
  - apply orb_false_iff in Hb as [Hc ->]. apply Z.eqb_neq in Hc.
    rewrite !close_auction_no_winner by done. cbn [current_max fst].
    by rewrite Hm.
Qed.

Lemma lower_bid_keeps_close_result_witness :
  fst (close_auction true (snd (place_bid "Bidder9" 12 (run scenario (init 10))))) =
    fst (close_auction true (run scenario (init 10))).
Proof.
  apply (lower_bid_keeps_close_result (run scenario (init 10)) "Bidder9" 12 true).
  reflexivity.
Defined.

(** X7: in a reachable ledger, a bid at or above the floor, strictly above
    the running maximum (or any accepted bid when the maximum is unset) and
    short enough to be formatted makes its bidder the winner of an immediate
    [close_auction], with or without the tie breaker. *)
Theorem higher_bid_wins
  (floor : Z) (cs : list call) (b : string) (a : Z) (tb : bool) :
  num_le (min_bid (run cs (init floor))) (Int a) ->
  num_lt (current_max (run cs (init floor))) (Int a) ->
  printable (Int a) = true ->
  close_auction tb (snd (place_bid b a (run cs (init floor)))) =
    (Return (Some b), snd (place_bid b a (run cs (init floor)))).
Proof.
  intros Hfl Hgt Hp. pose proof (Rep_reachable floor cs) as HR.
  set (s := run cs (init floor)) in *.
  assert (frequency s !! Int a = None) as Hnone.
  { destruct (frequency s !! Int a) as [l|] eqn:E; [|done].
    destruct (Rep_amount_keys s _ a l HR E) as [_ Hle].
    specialize (Hle Hp). unfold num_le in Hle. unfold num_lt in Hgt. congruence. }
  unfold num_le in Hfl. unfold num_lt in Hgt.
  rewrite place_bid_accepted_state by done. unfold num_gtb.
  rewrite Hgt, Hp, Hnone. cbn [default app andb].
  rewrite close_auction_winner_branch by done.
  cbn [frequency current_max]. by rewrite lookup_insert_eq, Hp.
Qed.

Lemma higher_bid_wins_witness :
  close_auction false (snd (place_bid "Bidder9" 30 (run scenario (init 10)))) =
    (Return (Some "Bidder9"), snd (place_bid "Bidder9" 30 (run scenario (init 10)))).
Proof.
  apply (higher_bid_wins 10 scenario "Bidder9" 30 false); reflexivity.
Defined.

(** X8: in a reachable ledger whose round has a running maximum [m], one
    more bid at [m], by whichever bidder (the one holding [m] included), is
    accepted and raises the count by one; [close_auction(False)] then leaves
    the ledger alone and returns [None], or raises [ValueError] when [m + 1]
    is too long for its log line. *)
Theorem bid_at_max_ties (floor : Z) (cs : list call) (b : string) (m : Z) :
  current_max (run cs (init floor)) = Int m ->
  current_max_count (snd (place_bid b m (run cs (init floor)))) =
    current_max_count (run cs (init floor)) + 1 /\
  close_auction false (snd (place_bid b m (run cs (init floor)))) =
    (if_printable (printable (Int (m + 1))) None,
     snd (place_bid b m (run cs (init floor)))).
Proof.
  intros Hm. pose proof (Rep_reachable floor cs) as HR.
  set (s := run cs (init floor)) in *.
  destruct (Rep_max_entry s _ m HR Hm) as (Hp & w & rest & _ & Hl & Hn).
  destruct (Rep_amount_keys s _ m _ HR Hl) as [Hfl _].
  unfold num_le in Hfl.
  rewrite place_bid_accepted_state by done. cbn [current_max_count].
  rewrite Hm, Hp. unfold num_gtb.
  assert (num_ltb (Int m) (Int m) = false) as -> by (cbn; apply Z.ltb_irrefl).
  assert (num_eqb (Int m) (Int m) = true) as -> by (cbn; apply Z.eqb_refl).
  cbn [andb]. split; [done|].
  rewrite close_auction_no_winner.
  - cbn [current_max num_succ]. by rewrite Hp.
  - cbn [current_max_count]. rewrite Hn. cbn [length].
    rewrite Nat2Z.inj_succ. lia.
Qed.

Lemma bid_at_max_ties_witness :
  current_max_count
    (snd (place_bid "BidderX" 12 (run [PlaceBid "BidderX" 12] (init 10)))) =
    current_max_count (run [PlaceBid "BidderX" 12] (init 10)) + 1 /\
  close_auction false
    (snd (place_bid "BidderX" 12 (run [PlaceBid "BidderX" 12] (init 10)))) =
    (if_printable (printable (Int (12 + 1))) None,
     snd (place_bid "BidderX" 12 (run [PlaceBid "BidderX" 12] (init 10)))).
Proof.
  apply (bid_at_max_ties 10 [PlaceBid "BidderX" 12] "BidderX" 12).
  reflexivity.
Defined.

(** X9: [close_auction] changes neither [min_bid], [current_max] nor
    [current_max_count], and keeps every entry of [frequency], in any ledger
    and whether it returns or raises; the only key it can add is
    [current_max] itself, bound to an empty list. *)
Theorem close_auction_frame (self : t) (tb : bool) :
  min_bid (snd (close_auction tb self)) = min_bid self /\
  current_max (snd (close_auction tb self)) = current_max self /\
  current_max_count (snd (close_auction tb self)) = current_max_count self /\
  (forall k l, frequency self !! k = Some l ->
     frequency (snd (close_auction tb self)) !! k = Some l) /\
  (forall k l, frequency (snd (close_auction tb self)) !! k = Some l ->
     frequency self !! k = Some l \/ (k = current_max self /\ l = [])).
Proof.
  destruct ((current_max_count self =? 1) || tb) eqn:Hb.
  - rewrite close_auction_winner_branch by done.
    destruct (frequency self !! current_max self) as [[|w l]|] eqn:E;
      cbn [snd min_bid current_max current_max_count frequency];
      repeat split; try done; try (intros k l' Hl; by left).
    + intros k l Hl. destruct (decide (current_max self = k)) as [<-|Hne].
      * congruence.
      * by rewrite lookup_insert_ne.
    + intros k l Hl. destruct (decide (current_max self = k)) as [<-|Hne].
      * rewrite lookup_insert_eq in Hl. injection Hl as <-. by right.
      * rewrite lookup_insert_ne in Hl by done. by left.
  - apply orb_false_iff in Hb as [Hc ->]. apply Z.eqb_neq in Hc.
    rewrite close_auction_no_winner by done.
    repeat split; try done. intros k l Hl. by left.
Qed.

(** X13: in a reachable ledger whose round has a running maximum [m], the
    first bidder at [m] keeps the tie-breaker win as long as nobody bids
    more: after any bid of at most [m], [close_auction(True)] answers as
    before. *)
Theorem first_at_max_keeps_tie_breaker
  (floor : Z) (cs : list call) (b : string) (a m : Z) :
  current_max (run cs (init floor)) = Int m ->
  a <= m ->
  fst (close_auction true (snd (place_bid b a (run cs (init floor))))) =
    fst (close_auction true (run cs (init floor))).
Proof.
  intros Hm Ha. pose proof (Rep_reachable floor cs) as HR.
  set (s := run cs (init floor)) in *.
  destruct (Rep_max_entry s _ m HR Hm) as (Hp & w & rest & _ & Hl & _).
  destruct (num_ltb (Int a) (min_bid s)) eqn:Hfl.
  { by rewrite place_bid_rejected. }
  rewrite place_bid_accepted_state by done. rewrite Hm.
  assert (num_gtb (Int a) (Int m) = false) as -> by (cbn; apply Z.ltb_ge; lia).
  rewrite andb_false_r.
  rewrite !close_auction_winner_branch by apply orb_true_r.
  rewrite Hm, Hl. cbn [fst frequency current_max].
  destruct (decide (a = m)) as [->|Hne].
  - by rewrite lookup_insert_eq, Hl.
  - rewrite lookup_insert_ne by congruence. by rewrite Hl.
Qed.

Lemma first_at_max_keeps_tie_breaker_witness :
  fst (close_auction true
         (snd (place_bid "Bidder9" 20 (run scenario (init 10))))) =
    fst (close_auction true (run scenario (init 10))).
Proof.
  apply (first_at_max_keeps_tie_breaker 10 scenario "Bidder9" 20 20).
  - reflexivity.
  - lia.
Defined.

(** X19: in a reachable ledger whose [current_max] is an amount [m],
    [close_auction] returns the first bidder of [frequency[m]], who is the
    first bidder of the round to have bid [m], whenever [current_max_count]
    is 1 or the tie breaker is on, however many bidders share [m]; with a
    count of 1 that bidder is the only entry.  The ledger is left as it
    was. *)
Theorem close_returns_first_bidder_at_max
  (floor : Z) (cs : list call) (tb : bool) (m : Z) :
  current_max (run cs (init floor)) = Int m ->
  current_max_count (run cs (init floor)) = 1 \/ tb = true ->
  exists w rest,
    frequency (run cs (init floor)) !! Int m = Some (w :: rest) /\
    bidders_at m (snd (run_log cs (init floor) [])) = w :: rest /\
    close_auction tb (run cs (init floor)) =
      (Return (Some w), run cs (init floor)) /\
    (current_max_count (run cs (init floor)) = 1 -> rest = []).
Proof.
  intros Hcm Hbr. pose proof (Rep_reachable floor cs) as HR.
  set (s := run cs (init floor)) in *.
  set (log := snd (run_log cs (init floor) [])) in *.
  destruct (Rep_max_entry s log m HR Hcm) as (Hp & w & rest & Hb & Hl & Hn).
  exists w, rest. repeat split; try done.
  - rewrite close_auction_winner_branch.
    + by rewrite Hcm, Hl, Hp.
    + destruct Hbr as [-> | ->]; [done | apply orb_true_r].
  - intros H1. rewrite H1 in Hn. symmetry in Hn.
    by apply length_one_tail in Hn.
Qed.

Lemma close_returns_first_bidder_at_max_witness :
  exists w rest,
    frequency (run scenario (init 10)) !! Int 20 = Some (w :: rest) /\
    bidders_at 20 (snd (run_log scenario (init 10) [])) = w :: rest /\
    close_auction true (run scenario (init 10)) =
      (Return (Some w), run scenario (init 10)) /\
    (current_max_count (run scenario (init 10)) = 1 -> rest = []).
Proof.
  apply (close_returns_first_bidder_at_max 10 scenario true 20).
  - reflexivity.
  - right. reflexivity.
Defined.

(** ** Sequences of bids *)

Lemma num_le_antisym (a b : num) : num_le a b -> num_le b a -> a = b.
Proof.
  unfold num_le. destruct a, b; cbn; try done.
  rewrite !Z.ltb_ge. intros ? ?. f_equal. lia.
Qed.

Lemma run_place_all_above_floor (f : num) (bids : list bid) (self : t) :
  min_bid self = f ->
  run (place_all bids) self = run (place_all (above_floor f bids)) self.
Proof.
  revert self. induction bids as [|[b a] bids IH]; intros self Hf; [done|].
  unfold above_floor. rewrite filter_cons. cbn [snd].
  change (run (place_all ((b, a) :: bids)) self)
    with (run (place_all bids) (snd (place_bid b a self))).
  destruct (decide (num_le f (Int a))) as [Hle|Hlt].
  - change (run (place_all ((b, a) :: filter _ bids)) self)
      with (run (place_all (above_floor f bids)) (snd (place_bid b a self))).
    apply IH. by rewrite place_bid_min_bid.
  - unfold num_le in Hlt. apply not_false_is_true in Hlt.
    rewrite place_bid_rejected by by rewrite Hf. by apply IH.
Qed.

Lemma above_floor_Forall (f : num) (bids : list bid) :
  Forall (fun x => num_le f (Int (snd x))) (above_floor f bids).
Proof.
  apply Forall_forall. intros x Hx. by apply list_elem_of_filter in Hx as [? _].
Qed.

Lemma max_amount_Permutation (l l' : list bid) :
  l ≡ₚ l' -> max_amount l = max_amount l'.
Proof.
  intros HP. destruct l as [|x l].
  { apply Permutation_nil_l in HP as <-. done. }
  destruct l' as [|x' l'].
  { by apply Permutation_nil_r in HP. }
  destruct (max_amount_attained (x :: l)) as (y & Hy & Hmy); [done|].
  destruct (max_amount_attained (x' :: l')) as (y' & Hy' & Hmy'); [done|].
  apply num_le_antisym.
  - rewrite Hmy. apply max_amount_upper. by rewrite <- HP.
  - rewrite Hmy'. apply max_amount_upper. by rewrite HP.
Qed.

Lemma count_amount_Permutation (m : num) (l l' : list bid) :
  l ≡ₚ l' -> count_amount m l = count_amount m l'.
Proof. intros HP. unfold count_amount. by rewrite HP. Qed.

Lemma count_amount_tallied (m : num) (log : list bid) :
  printable m = true -> count_amount m (tallied log) = count_amount m log.
Proof.
  intros Hp. destruct m as [|m].
  - rewrite !count_amount_zero; done.
  - by rewrite <- !bidders_at_length, bidders_at_tallied.
Qed.

(** X10: bids below the floor leave no trace in a sequence of bids: placing
    a list of bids leaves the ledger exactly as placing only those whose
    amount is at least the floor, in any ledger. *)
Theorem rejected_bids_leave_no_trace (self : t) (bids : list bid) :
  run (place_all bids) self =
    run (place_all (above_floor (min_bid self) bids)) self.
Proof. by apply run_place_all_above_floor. Qed.

(** X11: from a ledger at the start of a round, the running maximum and
    its count do not depend on the order in which the bids arrive. *)
Theorem tally_order_independent (self : t) (bids bids' : list bid) :
  fresh self ->
  bids ≡ₚ bids' ->
  current_max (run (place_all bids) self) =
    current_max (run (place_all bids') self) /\
  current_max_count (run (place_all bids) self) =
    current_max_count (run (place_all bids') self).
Proof.
  intros Hf HP.
  rewrite (run_place_all_above_floor (min_bid self) bids self eq_refl).
  rewrite (run_place_all_above_floor (min_bid self) bids' self eq_refl).
  destruct (run_place_all self _ Hf (above_floor_Forall (min_bid self) bids))
    as [[Hm Hc] _].
  destruct (run_place_all self _ Hf (above_floor_Forall (min_bid self) bids'))
    as [[Hm' Hc'] _].
  assert (tallied (above_floor (min_bid self) bids) ≡ₚ
          tallied (above_floor (min_bid self) bids'))
    as HP' by (unfold tallied, above_floor; by rewrite HP).
  rewrite Hc, Hc', Hm, Hm'. rewrite (max_amount_Permutation _ _ HP').
  split; [done|]. by apply count_amount_Permutation.
Qed.

Lemma tally_order_independent_witness :
  current_max
    (run (place_all [("Bidder1", 15); ("Bidder2", 20); ("Bidder3", 5)]) (init 10)) =
  current_max
    (run (place_all [("Bidder3", 5); ("Bidder2", 20); ("Bidder1", 15)]) (init 10)) /\
  current_max_count
    (run (place_all [("Bidder1", 15); ("Bidder2", 20); ("Bidder3", 5)]) (init 10)) =
  current_max_count
    (run (place_all [("Bidder3", 5); ("Bidder2", 20); ("Bidder1", 15)]) (init 10)).
Proof.
  apply (tally_order_independent (init 10)
           [("Bidder1", 15); ("Bidder2", 20); ("Bidder3", 5)]
           [("Bidder3", 5); ("Bidder2", 20); ("Bidder1", 15)]).
  - split; reflexivity.
  - apply Permutation_sym.
    apply (Permutation_trans (l' := [("Bidder2", 20); ("Bidder3", 5); ("Bidder1", 15)])).
    + apply perm_swap.
    + apply (Permutation_trans (l' := [("Bidder2", 20); ("Bidder1", 15); ("Bidder3", 5)])).
      * apply perm_skip, perm_swap.
      * apply perm_swap.
Defined.

(** X12: within a sequence of bids the floor stays what it was and the
    running maximum never goes down, in any ledger. *)
Theorem bids_keep_floor_and_raise_max (self : t) (bids : list bid) :
  min_bid (run (place_all bids) self) = min_bid self /\
  num_le (current_max self) (current_max (run (place_all bids) self)).
Proof.
  induction bids as [|[b a] bids IH] using rev_ind.
  - split; [done | apply num_le_refl].
  - destruct IH as [Hmb Hle]. rewrite place_all_snoc, run_snoc.
    cbn [exec fst snd]. split; [by rewrite place_bid_min_bid|].
    eapply num_le_trans; [exact Hle|].
    set (s := run (place_all bids) self).
    destruct (num_ltb (Int a) (min_bid s)) eqn:Hlt.
    + rewrite place_bid_rejected by done. apply num_le_refl.
    + rewrite place_bid_accepted_state by done. cbn [current_max].
      unfold num_gtb. destruct (printable (Int a)); cbn [andb];
        [|apply num_le_refl].
      destruct (num_ltb (current_max s) (Int a)) eqn:Hgt.
      * by apply num_ltb_le.
      * apply num_le_refl.
Qed.

(** X18: from a ledger at the start of a round, after any sequence of
    [place_bid] calls whose amounts are all at least the floor,
    [current_max] is the largest of the amounts that can be formatted (an
    upper bound of them that one of them attains, and still unset when there
    are none), and [current_max_count] is the number of the bids whose amount
    equals it. *)
Theorem running_max_of_printable_bids (self : t) (bids : list bid) :
  fresh self ->
  Forall (fun b => num_le (min_bid self) (Int (snd b))) bids ->
  current_max (run (place_all bids) self) = max_amount (tallied bids) /\
  (forall x, x ∈ bids -> printable (Int (snd x)) = true ->
     num_le (Int (snd x)) (current_max (run (place_all bids) self))) /\
  (tallied bids <> [] ->
     exists x, x ∈ bids /\ printable (Int (snd x)) = true /\
               current_max (run (place_all bids) self) = Int (snd x)) /\
  (tallied bids = [] -> current_max (run (place_all bids) self) = NegInf) /\
  current_max_count (run (place_all bids) self) =
    Z.of_nat (length (filter
      (fun x => Int (snd x) = current_max (run (place_all bids) self)) bids)).
Proof.
  intros Hf Hall. destruct (run_place_all self bids Hf Hall) as [[Hmax Hcnt] _].
  split; [done|]. split; [|split; [|split]].
  - intros x Hx Hp. rewrite Hmax. apply max_amount_upper. by apply tallied_elem.
  - intros Hne. destruct (max_amount_attained _ Hne) as (x & Hx & Hm).
    apply tallied_elem in Hx as [Hp Hx]. exists x. by rewrite Hmax.
  - intros Hnil. by rewrite Hmax, Hnil.
  - rewrite Hcnt. apply count_amount_tallied. rewrite Hmax.
    destruct (max_amount (tallied bids)) as [|m] eqn:Hm; [done|].
    by eapply max_tallied_printable.
Qed.

Lemma running_max_of_printable_bids_witness :
  current_max (run (place_all [("Bidder1", 15); ("Bidder2", 20); ("Bidder3", 20)])
                 (init 10)) = Int 20 /\
  current_max_count
    (run (place_all [("Bidder1", 15); ("Bidder2", 20); ("Bidder3", 20)])
       (init 10)) = 2.
Proof.
  destruct (running_max_of_printable_bids (init 10)
              [("Bidder1", 15); ("Bidder2", 20); ("Bidder3", 20)])
    as (Hmax & _ & _ & _ & Hcnt).
  - split; reflexivity.
  - repeat constructor; vm_compute; reflexivity.
  - split; [rewrite Hmax|rewrite Hcnt]; vm_compute; reflexivity.
Defined.

(** ** Restarting *)

(** X14: restarting a reachable ledger whose round has a running maximum
    [m] strictly raises the floor, and a bid of any amount up to [m] is
    rejected afterwards: it leaves the restarted ledger as it is. *)
Theorem restart_outbids_the_round (floor : Z) (cs : list call) (m : Z) :
  current_max (run cs (init floor)) = Int m ->
  num_lt (min_bid (run cs (init floor)))
         (min_bid (snd (restart_auction (run cs (init floor))))) /\
  forall a b,
    a <= m ->
    snd (place_bid b a (snd (restart_auction (run cs (init floor))))) =
      snd (restart_auction (run cs (init floor))).
Proof.
  intros Hm. pose proof (Rep_reachable floor cs) as HR.
  set (s := run cs (init floor)) in *.
  rewrite restart_auction_eq, Hm. cbn [snd min_bid num_succ]. split.
  - destruct (Rep_max_entry s _ m HR Hm) as (_ & w & rest & _ & Hl & _).
    destruct (Rep_amount_keys s _ m _ HR Hl) as [Hfl _].
    unfold num_lt. destruct (min_bid s) as [|f]; [done|].
    apply num_le_Int in Hfl. cbn. apply Z.ltb_lt. lia.
  - intros a b Ha. rewrite place_bid_rejected; [done|].
    cbn. apply Z.ltb_lt. lia.
Qed.

Lemma restart_outbids_the_round_witness :
  num_lt (min_bid (run scenario (init 10)))
         (min_bid (snd (restart_auction (run scenario (init 10))))) /\
  forall a b,
    a <= 20 ->
    snd (place_bid b a (snd (restart_auction (run scenario (init 10))))) =
      snd (restart_auction (run scenario (init 10))).
Proof.
  apply (restart_outbids_the_round 10 scenario 20).
  reflexivity.
Defined.



(** X16: two restarts in a row, from any ledger, leave the floor at [-inf];
    from then on no bid is rejected: a bid of any amount is recorded in
    [frequency], and one that can be formatted becomes the running
    maximum. *)
Theorem double_restart_drops_floor (self : t) (b : string) (a : Z) :
  snd (restart_auction (snd (restart_auction self))) = mk NegInf ∅ NegInf 0 /\
  frequency
    (snd (place_bid b a (snd (restart_auction (snd (restart_auction self))))))
    !! Int a = Some [b] /\
  (printable (Int a) = true ->
   place_bid b a (snd (restart_auction (snd (restart_auction self)))) =
     (Return tt, mk NegInf (<[Int a := [b]]> ∅) (Int a) 1)).
Proof.
  rewrite !restart_auction_eq. cbn [snd current_max num_succ].
  split; [done|]. split.
  - rewrite place_bid_accepted_state by done. cbn [frequency].
    by rewrite lookup_insert_eq, lookup_empty.
  - intros Hp. rewrite place_bid_printable by done.
    cbn [min_bid frequency current_max current_max_count num_gtb num_ltb].
    by rewrite lookup_empty.
Qed.

(** ** Bidder ids *)

(** X17: [place_bid] takes the empty string as a bidder id like any other;
    when that bid, of an amount that can be formatted, is the only one of a
    new ledger, [close_auction] returns the empty string as the winner, a
    value the example script's [if winner:] test takes for no winner. *)
Theorem empty_bidder_id_is_falsy_winner (floor a : Z) (tb : bool) :
  floor <= a ->
  printable (Int a) = true ->
  fst (close_auction tb (snd (place_bid EmptyString a (init floor)))) =
    Return (Some EmptyString) /\
  truthy (Some EmptyString) = false.
Proof.
  intros Hle Hp. split; [|done].
  rewrite place_bid_accepted_state by (cbn; apply Z.ltb_ge; lia).
  cbn [init min_bid frequency current_max current_max_count num_gtb num_ltb].
  rewrite lookup_empty, Hp. cbn [default app andb].
  rewrite close_auction_winner_branch by done.
  cbn [frequency current_max]. by rewrite lookup_insert_eq, Hp.
Qed.

Lemma empty_bidder_id_is_falsy_winner_witness :
  fst (close_auction false (snd (place_bid EmptyString 12 (init 10)))) =
    Return (Some EmptyString) /\
  truthy (Some EmptyString) = false.
Proof.
  apply (empty_bidder_id_is_falsy_winner 10 12 false); [lia | reflexivity].
Defined.
